(** * VirtualiZarr: HDF5 filter pipeline to codec descriptors

  A shallow embedding of [virtualizarr/readers/hdf_filters.py]:
  [_filter_to_codec], the [BloscProperties] model, [codecs_from_dataset]
  and [cfcodec_from_dataset].

  Python dictionaries are finite maps ([gmap]), exceptions are the
  [Raise] branch of a result type, and numpy's float64 is Rocq's
  primitive binary64 [float].  The collaborators that live outside the
  repository (the hdf5plugin filter table, its Blosc compressor table,
  the numcodecs codec registry and xarray's [_choose_float_dtype]) are
  parameters of a section. *)

From Stdlib Require Import ZArith Floats Ascii String.
From stdpp Require Import gmap strings list fin_maps.

Open Scope string_scope.
Open Scope Z_scope.

(** ** The Python runtime the module relies on *)

Module Py.

(** The exceptions that the modelled code can raise. *)
Inductive exn : Set :=
| ValueError          (* int() on a non-numeric string, unknown plugin filter,
                         truth value of an array that is not one element long *)
| KeyError            (* dict subscript on a missing key *)
| IndexError          (* subscript on a numpy scalar or past the end *)
| TypeError           (* subscript on a Python int *)
| UnboundLocalError   (* a local read before any assignment *)
| ValidationError     (* pydantic: a required field is missing *)
| UnknownCodecError.  (* numcodecs: no codec registered under this id *)

Global Instance exn_eq_dec : EqDecision exn.
Proof. solve_decision. Defined.

(** [LookupError] is the common base class of [KeyError] and [IndexError]. *)
Definition is_LookupError (e : exn) : bool :=
  match e with
  | KeyError | IndexError => true
  | _ => false
  end.

(** A computation either returns a value or raises. *)
Inductive result (A : Type) : Type :=
| Ok (a : A)
| Raise (e : exn).
Global Arguments Ok {A} a.
Global Arguments Raise {A} e.

Global Instance result_ret : MRet result := @Ok.

Global Instance result_bind : MBind result := fun A B k m =>
  match m with
  | Ok a => k a
  | Raise e => Raise e
  end.

Global Instance result_fmap : FMap result := fun A B f m =>
  match m with
  | Ok a => Ok (f a)
  | Raise e => Raise e
  end.

Definition is_Ok {A} (m : result A) : Prop := exists a, m = Ok a.

(** *** [int(str)]

    Base-ten parsing as done by the builtin: surrounding white space is
    dropped, one sign may precede the digits, and single underscores may
    separate digits.  Strings are sequences of bytes here, so only ASCII
    digits and ASCII white space are recognised. *)

Definition is_space (c : ascii) : bool :=
  let n := Z.of_nat (nat_of_ascii c) in
  ((9 <=? n) && (n <=? 13)) || (n =? 32).

Definition digit_of (c : ascii) : option Z :=
  let n := Z.of_nat (nat_of_ascii c) in
  if (48 <=? n) && (n <=? 57) then Some (n - 48) else None.

Fixpoint lstrip (s : string) : string :=
  match s with
  | String c s' => if is_space c then lstrip s' else s
  | EmptyString => EmptyString
  end.

Fixpoint rstrip (s : string) : string :=
  match s with
  | String c s' =>
      match rstrip s' with
      | EmptyString => if is_space c then EmptyString else String c EmptyString
      | r => String c r
      end
  | EmptyString => EmptyString
  end.

(** [digits acc after_digit s]: [after_digit] tells whether the previous
    character was a digit, which is when an underscore or the end of the
    string is allowed. *)
Fixpoint digits (acc : Z) (after_digit : bool) (s : string) : option Z :=
  match s with
  | EmptyString => if after_digit then Some acc else None
  | String c s' =>
      match digit_of c with
      | Some d => digits (10 * acc + d) true s'
      | None =>
          if Ascii.eqb c "_" && after_digit then digits acc false s' else None
      end
  end.

Definition int (s : string) : result Z :=
  let body := rstrip (lstrip s) in
  let parsed :=
    match body with
    | String "+" r => digits 0 false r
    | String "-" r => Z.opp <$> digits 0 false r
    | _ => digits 0 false body
    end in
  match parsed with
  | Some n => Ok n
  | None => Raise ValueError
  end.

(** Truth values of the two optional locals of [_filter_to_codec]:
    [None], the empty string and zero are false. *)
Definition truthy_str (o : option string) : bool :=
  match o with
  | Some s => negb (String.eqb s "")
  | None => false
  end.

Definition truthy_int (o : option Z) : bool :=
  match o with
  | Some n => negb (n =? 0)
  | None => false
  end.

End Py.

Import Py.

(** ** Data model *)

(** The parameter blob recorded with a filter
    ([Union[int, None, Tuple]]); a tuple holds the raw integers of the
    HDF5 filter pipeline. *)
Inductive filter_properties_t : Set :=
| PropsNone
| PropsInt (n : Z)
| PropsTuple (t : list Z).

(** [isinstance(filter_properties, tuple)] *)
Definition is_tuple (p : filter_properties_t) : bool :=
  match p with
  | PropsTuple _ => true
  | _ => false
  end.

(** Values held by a codec configuration dict. *)
Inductive value : Set :=
| VNone
| VInt (n : Z)
| VStr (s : string)
| VTuple (t : list Z).

Global Instance value_eq_dec : EqDecision value.
Proof. solve_decision. Defined.

Definition value_of_properties (p : filter_properties_t) : value :=
  match p with
  | PropsNone => VNone
  | PropsInt n => VInt n
  | PropsTuple t => VTuple t
  end.

(** A codec descriptor is a dict from parameter names to values, with the
    codec's name under ["id"]. *)
Abbreviation config := (gmap string value).

(** A codec instance as the registry builds it: the class it was
    registered under and the remaining parameters. *)
Record Codec : Set := {
  codec_id : string;
  codec_config : config;
}.

(** [_non_standard_filters = {"gzip": "zlib"}] *)
Definition _non_standard_filters : gmap string string :=
  {[ "gzip" := "zlib" ]}.

(** The pydantic model [BloscProperties]. *)
Record BloscProperties : Set := {
  blocksize : Z;
  clevel : Z;
  shuffle : Z;
  cname : string;
}.

(** [BloscProperties.__fields__.keys()], in declaration order. *)
Definition BloscProperties_fields : list string :=
  ["blocksize"; "clevel"; "shuffle"; "cname"].

(** [blosc_props.model_dump()] *)
Definition model_dump (p : BloscProperties) : config :=
  {[ "blocksize" := VInt (blocksize p);
     "clevel" := VInt (clevel p);
     "shuffle" := VInt (shuffle p);
     "cname" := VStr (cname p) ]}.

(** [t[-4:]]: the last four elements, or all of [t] when it is shorter. *)
Definition last_four (t : list Z) : list Z :=
  drop (length t - 4)%nat t.

(** *** Numbers, dtypes and datasets *)

(** The numeric values [cfcodec_from_dataset] handles: the Python literals
    [1] and [0], a [numpy.float64] scalar (what h5py gives for a scalar
    attribute) and a one-dimensional float64 array. *)
Inductive number : Set :=
| PyInt (n : Z)
| Float64 (x : float)
| Array (xs : list float).

(** The result of a comparison: one boolean, or one per array element. *)
Inductive truth : Set :=
| Bool (b : bool)
| Bools (bs : list bool).

(** The float64 an integer literal is compared as (exact below 2^53). *)
Definition float_of_Z (k : Z) : float :=
  if k <? 0 then PrimFloat.opp (PrimFloat.of_uint63 (Uint63.of_Z (- k)))
  else PrimFloat.of_uint63 (Uint63.of_Z k).

(** [v != k] and [v == k] for an integer literal [k]; floats compare as
    IEEE 754 has it, arrays element by element. *)
Definition py_ne (v : number) (k : Z) : truth :=
  match v with
  | PyInt n => Bool (negb (n =? k))
  | Float64 x => Bool (negb (PrimFloat.eqb x (float_of_Z k)))
  | Array xs => Bools (map (fun x => negb (PrimFloat.eqb x (float_of_Z k))) xs)
  end.

Definition py_eq (v : number) (k : Z) : truth :=
  match v with
  | PyInt n => Bool (n =? k)
  | Float64 x => Bool (PrimFloat.eqb x (float_of_Z k))
  | Array xs => Bools (map (fun x => PrimFloat.eqb x (float_of_Z k)) xs)
  end.

(** [bool(t)]: an array has a truth value only when it holds exactly one
    element. *)
Definition bool_of (t : truth) : result bool :=
  match t with
  | Bool b => Ok b
  | Bools [b] => Ok b
  | Bools _ => Raise ValueError
  end.

(** [a or b] and [a and b] in a condition; the right operand is evaluated
    only when the left one does not decide. *)
Definition py_or (a b : truth) : result bool :=
  x ← bool_of a; if x : bool then Ok true else bool_of b.

Definition py_and (a b : truth) : result bool :=
  x ← bool_of a; if x : bool then bool_of b else Ok false.

(** [v[0]] *)
Definition getitem0 (v : number) : result float :=
  match v with
  | Array (x :: _) => Ok x
  | Array [] => Raise IndexError
  | Float64 _ => Raise IndexError
  | PyInt _ => Raise TypeError
  end.

(** The float64 that the literal [0.01] denotes. *)
Definition one_hundredth : float := 0x1.47ae147ae147bp-7%float.

(** The floating types [_choose_float_dtype] picks from. *)
Inductive float_type : Set := float16 | float32 | float64.

Inductive np_dtype : Set :=
| IntDtype (signed : bool) (itemsize : Z)
| FloatDtype (t : float_type)
| OtherDtype (name : string).

Definition is_integer (d : np_dtype) : bool :=
  match d with
  | IntDtype _ _ => true
  | _ => false
  end.

Definition is_floating (d : np_dtype) : bool :=
  match d with
  | FloatDtype _ => true
  | _ => false
  end.

(** What is read of an [h5py.Dataset]: its attributes, its element type
    and its filter pipeline ([dataset._filters.items()], in order). *)
Record Dataset : Set := {
  attrs : gmap string number;
  dtype : np_dtype;
  _filters : list (string * filter_properties_t);
}.

(** numcodecs' [FixedScaleOffset] as constructed on line 86. *)
Record FixedScaleOffset : Set := {
  offset : number;
  scale : number;
  fso_dtype : np_dtype;
  astype : np_dtype;
}.

(** The typed dict [CFCodec]. *)
Record CFCodec : Set := {
  target_dtype : np_dtype;
  codec : FixedScaleOffset;
}.

(** ** Tables of the external libraries, as they ship

    These instantiate the parameters of the section below in examples. *)

(** hdf5plugin's registered filters, by HDF5 filter id. *)
Definition hdf5plugin_filter_name (filter_id : Z) : option string :=
  match filter_id with
  | 32001 => Some "blosc"
  | 32026 => Some "blosc2"
  | 32008 => Some "bshuf"
  | 307 => Some "bzip2"
  | 32018 => Some "fcidecomp"
  | 32004 => Some "lz4"
  | 32028 => Some "sperr"
  | 32017 => Some "sz"
  | 32024 => Some "sz3"
  | 32013 => Some "zfp"
  | 32015 => Some "zstd"
  | _ => None
  end.

(** hdf5plugin's [Blosc.__COMPRESSIONS], as [items()] lists it. *)
Definition Blosc_COMPRESSIONS : list (string * Z) :=
  [("blosclz", 0); ("lz4", 1); ("lz4hc", 2); ("snappy", 3); ("zlib", 4); ("zstd", 5)].

(** Codec ids known to numcodecs that the HDF5 filters map to. *)
Definition numcodecs_ids : gset string :=
  {[ "blosc"; "zlib"; "shuffle"; "fletcher32"; "zstd"; "lz4"; "bz2" ]}.

(** With float64 the only float type among the attributes, and both
    entries of [mapping] always present, xarray's rule settles on
    float64. *)
Definition choose_float64 (raw : np_dtype) (mapping : gmap string number) : float_type :=
  float64.

(** A 16-bit integer variable packed with a scale and an offset. *)
Definition packed_int16 : Dataset :=
  {| attrs := {[ "scale_factor" := Array [one_hundredth];
                 "add_offset" := Array [5%float] ]};
     dtype := IntDtype true 2;
     _filters := [("shuffle", PropsTuple [2]); ("gzip", PropsInt 4)] |}.

(** The same variable without packing attributes, compressed with blosc. *)
Definition plain_int16 : Dataset :=
  {| attrs := ∅;
     dtype := IntDtype true 2;
     _filters := [("32001", PropsTuple [2; 2; 2; 0; 5; 1; 1])] |}.

(** ** The filter resolver *)

Section HdfFilters.

(** [hdf5plugin.get_filters(id)[0].filter_name]; [None] stands for the
    [ValueError] that [get_filters] raises on an id it does not know. *)
Variable plugin_filter_name : Z -> option string.

(** [hdf5plugin._filters.Blosc._Blosc__COMPRESSIONS.items()]: compressor
    name and numeric code, in the dict's order. *)
Variable COMPRESSIONS : list (string * Z).

(** The ids under which numcodecs has a codec class registered. *)
Variable codec_registry : gset string.

(** xarray's [_choose_float_dtype(dtype, mapping)]: the float type to
    decode into. *)
Variable _choose_float_dtype : np_dtype -> gmap string number -> float_type.

(** [hdf5plugin.get_filters(id_int)[0]] followed by [.filter_name] *)
Definition get_filters (id_int : Z) : result string :=
  match plugin_filter_name id_int with
  | Some name => Ok name
  | None => Raise ValueError
  end.

(** The dict comprehension [{value: key for key, value in ...items()}]:
    entries are stored in order, a later name replacing an earlier one
    with the same code. *)
Definition blosc_compressor_codes : gmap Z string :=
  foldl (fun m kv => <[kv.2 := kv.1]> m) ∅ COMPRESSIONS.

(** The [pre] validator of [cname]: [blosc_compressor_codes[v]]. *)
Definition get_cname_from_code (v : Z) : result string :=
  match blosc_compressor_codes !! v with
  | Some name => Ok name
  | None => Raise KeyError
  end.

(** The constructor of [BloscProperties] on keyword arguments.  The validator of [cname] runs when the
    field is given, and what it raises is not a [ValueError], so it
    propagates as it is; a missing field is reported as a validation
    error once all fields have been looked at. *)
Definition BloscProperties_init (kwargs : gmap string Z) : result BloscProperties :=
  name ← match kwargs !! "cname" with
         | Some v => Some <$> get_cname_from_code v
         | None => Ok None
         end;
  match kwargs !! "blocksize", kwargs !! "clevel", kwargs !! "shuffle", name with
  | Some b, Some c, Some s, Some n =>
      Ok {| blocksize := b; clevel := c; shuffle := s; cname := n |}
  | _, _, _, _ => Raise ValidationError
  end.

(** Modelled from the spec: numcodecs' [registry.get_codec], which is not
    part of the repository.  The descriptor's ["id"] is looked up among the
    registered codecs; the codec is built from the other entries, and an id
    that is not registered fails with [UnknownCodecError]. *)
Definition get_codec (conf : config) : result Codec :=
  match conf !! "id" with
  | Some (VStr id) =>
      if decide (id ∈ codec_registry)
      then Ok {| codec_id := id; codec_config := delete "id" conf |}
      else Raise UnknownCodecError
  | _ => Raise UnknownCodecError
  end.

(** Lines 46 to 49: a non-standard name is replaced by its alias. *)
Definition standard_id (id_str : string) : string :=
  match _non_standard_filters !! id_str with
  | Some id => id
  | None => id_str
  end.

(** A descriptor resolves when its ["id"] names a registered codec. *)
Definition resolves (conf : config) : Prop :=
  exists id, conf !! "id" = Some (VStr id) /\ id ∈ codec_registry.

(** Lines 38 to 66 of [_filter_to_codec]: what the local [conf] holds when
    line 68 is reached, [None] when it was never assigned. *)
Definition build_conf (filter_id : string) (filter_properties : filter_properties_t)
  : result (option config) :=
  let '(id_int, id_str) :=
    match int filter_id with
    | Ok n => (Some n, None)
    | Raise _ => (None, Some filter_id)
    end in
  let conf : option config :=
    if truthy_str id_str then
      let id := standard_id filter_id in
      let conf : config := {[ "id" := VStr id ]} in
      if decide (id = "zlib")
      then Some (<[ "level" := value_of_properties filter_properties ]> conf)
      else Some conf
    else None in
  match id_int with
  | Some n =>
      if truthy_int id_int then
        id ← get_filters n;
        match filter_properties with
        | PropsTuple t =>
            if decide (id = "blosc") then
              blosc_props ← BloscProperties_init
                              (list_to_map (zip BloscProperties_fields (last_four t)));
              Ok (Some (<[ "id" := VStr id ]> (model_dump blosc_props)))
            else Ok conf
        | _ => Ok conf
        end
      else Ok conf
  | None => Ok conf
  end.

(** [_filter_to_codec]: line 68 reads [conf] and hands it to the registry. *)
Definition _filter_to_codec (filter_id : string) (filter_properties : filter_properties_t)
  : result Codec :=
  conf ← build_conf filter_id filter_properties;
  match conf with
  | Some c => get_codec c
  | None => Raise UnboundLocalError
  end.

(** ** The linear-transform deriver *)

(** Lines 74 to 82: the [mapping] dict, as its two entries. *)
Definition derive_mapping (dataset : Dataset) : result (number * number) :=
  let attributes := attrs dataset in
  scale_factor ← match attributes !! "scale_factor" with
                 | Some v => x ← getitem0 v; Ok (Float64 (1 / x))
                 | None => Ok (PyInt 1)
                 end;
  let add_offset :=
    match attributes !! "add_offset" with
    | Some v => v
    | None => PyInt 0
    end in
  Ok (scale_factor, add_offset).

Definition cfcodec_from_dataset (dataset : Dataset) : result (option CFCodec) :=
  m ← derive_mapping dataset;
  let mapping : gmap string number :=
    <[ "add_offset" := m.2 ]> (<[ "scale_factor" := m.1 ]> ∅) in
  changed ← py_or (py_ne m.1 1) (py_ne m.2 0);
  if changed : bool then
    let float_dtype := _choose_float_dtype (dtype dataset) mapping in
    let target_dtype := FloatDtype float_dtype in
    let codec := {| offset := m.2; scale := m.1;
                    fso_dtype := target_dtype; astype := dtype dataset |} in
    Ok (Some {| target_dtype := target_dtype; codec := codec |})
  else Ok None.

(** ** The filter pipeline *)

(** The loop of [codecs_from_dataset]: each codec is appended to the list
    built so far; the first filter that fails ends the call. *)
Fixpoint codecs_loop (items : list (string * filter_properties_t)) (codecs : list Codec)
  : result (list Codec) :=
  match items with
  | [] => Ok codecs
  | (filter_id, filter_properties) :: rest =>
      codec ← _filter_to_codec filter_id filter_properties;
      codecs_loop rest (codecs ++ [codec])
  end.

Definition codecs_from_dataset (dataset : Dataset) : result (list Codec) :=
  codecs_loop (_filters dataset) [].

(** * Properties *)

(** The HDF5 filter id [0] is [H5Z_FILTER_NONE]; no plugin is registered
    under it. *)
Hypothesis H5Z_FILTER_NONE_unregistered : plugin_filter_name 0 = None.

(** ** Slices, keyword arguments and the reverse table *)

Lemma last_four_app (pre : list Z) (b c s x : Z) :
  last_four (pre ++ [b; c; s; x]) = [b; c; s; x].
Proof.
  unfold last_four. rewrite length_app. simpl.
  replace (length pre + 4 - 4)%nat with (length pre) by lia.
  by rewrite drop_app_length.
Qed.

Lemma last_four_short (t : list Z) :
  (length t < 4)%nat -> last_four t = t.
Proof.
  intros Hlen. unfold last_four.
  replace (length t - 4)%nat with 0%nat by lia. reflexivity.
Qed.

Lemma BloscProperties_init_four (b c s x : Z) :
  BloscProperties_init (list_to_map (zip BloscProperties_fields [b; c; s; x])) =
  name ← get_cname_from_code x;
  Ok {| blocksize := b; clevel := c; shuffle := s; cname := name |}.
Proof.
  unfold BloscProperties_init. simpl.
  repeat (rewrite lookup_insert_eq || (rewrite lookup_insert_ne by done)).
  destruct (get_cname_from_code x); reflexivity.
Qed.

Lemma reverse_table_lookup (l : list (string * Z)) (m : gmap Z string) (x : Z) (name : string) :
  foldl (fun m kv => <[kv.2 := kv.1]> m) m l !! x = Some name ->
  (name, x) ∈ l \/ m !! x = Some name.
Proof.
  revert m. induction l as [|[k v] l IH]; intros m Hx; simpl in *.
  - by right.
  - destruct (IH _ Hx) as [Hin | Hm].
    + left. by apply elem_of_cons; right.
    + destruct (decide (v = x)) as [->|Hne].
      * rewrite lookup_insert_eq in Hm. inversion Hm; subst. left. apply elem_of_cons. by left.
      * rewrite lookup_insert_ne in Hm by done. by right.
Qed.

Lemma reverse_table_missing (l : list (string * Z)) (m : gmap Z string) (x : Z) :
  foldl (fun m kv => <[kv.2 := kv.1]> m) m l !! x = None <->
  m !! x = None /\ x ∉ l.*2.
Proof.
  revert m. induction l as [|[k v] l IH]; intros m; simpl.
  - split; [intros H; split; [done | apply not_elem_of_nil] | by intros [H _]].
  - rewrite IH, not_elem_of_cons. destruct (decide (v = x)) as [->|Hne].
    + rewrite lookup_insert_eq. intuition congruence.
    + rewrite lookup_insert_ne by done. intuition congruence.
Qed.

(** A name found in the reverse table has that code in the forward one. *)
Lemma blosc_compressor_codes_sound (x : Z) (name : string) :
  blosc_compressor_codes !! x = Some name -> (name, x) ∈ COMPRESSIONS.
Proof.
  intros H. destruct (reverse_table_lookup _ _ _ _ H) as [Hin | He]; [done |].
  by rewrite lookup_empty in He.
Qed.

(** The reverse table misses exactly the codes no compressor has. *)
Lemma blosc_compressor_codes_missing (x : Z) :
  blosc_compressor_codes !! x = None <-> x ∉ COMPRESSIONS.*2.
Proof.
  unfold blosc_compressor_codes. rewrite reverse_table_missing, lookup_empty.
  tauto.
Qed.

(** ** The two branches of [_filter_to_codec] *)

(** What lines 38 to 66 do once [int(filter_id)] has succeeded. *)
Lemma build_conf_numeric (filter_id : string) (n : Z) (p : filter_properties_t) :
  int filter_id = Ok n ->
  build_conf filter_id p =
    if decide (n = 0) then Ok None
    else
      id ← get_filters n;
      match p with
      | PropsTuple t =>
          if decide (id = "blosc") then
            blosc_props ← BloscProperties_init
                            (list_to_map (zip BloscProperties_fields (last_four t)));
            Ok (Some (<[ "id" := VStr id ]> (model_dump blosc_props)))
          else Ok None
      | _ => Ok None
      end.
Proof.
  intros Hint. unfold build_conf. rewrite Hint. simpl.
  destruct (decide (n = 0)) as [->|Hn]; [reflexivity |].
  apply Z.eqb_neq in Hn. rewrite Hn. reflexivity.
Qed.

(** What they do once it has raised. *)
Lemma build_conf_string (filter_id : string) (p : filter_properties_t) :
  int filter_id = Raise ValueError ->
  build_conf filter_id p =
    if decide (filter_id = "") then Ok None
    else if decide (standard_id filter_id = "zlib")
    then Ok (Some {[ "id" := VStr "zlib"; "level" := value_of_properties p ]})
    else Ok (Some {[ "id" := VStr (standard_id filter_id) ]}).
Proof.
  intros Hint. unfold build_conf. rewrite Hint. simpl.
  destruct (decide (filter_id = "")) as [->|Hne]; [reflexivity |].
  apply String.eqb_neq in Hne. rewrite Hne. simpl.
  case_decide as Hid; [| reflexivity]. rewrite Hid. reflexivity.
Qed.

Lemma blosc_id_nonzero (n : Z) :
  plugin_filter_name n = Some "blosc" -> n <> 0.
Proof.
  intros Hn ->. rewrite H5Z_FILTER_NONE_unregistered in Hn. discriminate.
Qed.

Lemma blosc_conf_normal_form (b c s : Z) (name : string) :
  <[ "id" := VStr "blosc" ]>
    (model_dump {| blocksize := b; clevel := c; shuffle := s; cname := name |}) =
  ({[ "id" := VStr "blosc"; "blocksize" := VInt b; "clevel" := VInt c;
      "shuffle" := VInt s; "cname" := VStr name ]} : config).
Proof. reflexivity. Qed.

(** ** Numeric filter ids *)

(** C1.  A numeric filter id that the plugin registry resolves to
    ["blosc"], given with a tuple whose last four elements are
    [(blocksize, clevel, shuffle, cname_code)], yields the descriptor
    [{id: "blosc", blocksize, clevel, shuffle, cname}], where [cname] is
    the name the reverse table gives for [cname_code], a name whose code in
    the plugin's own table is [cname_code]; that descriptor is what the
    codec registry is asked for. *)
Theorem blosc_descriptor_from_last_four
    (filter_id : string) (n : Z) (pre : list Z) (b c s x : Z) (name : string) :
  int filter_id = Ok n ->
  plugin_filter_name n = Some "blosc" ->
  blosc_compressor_codes !! x = Some name ->
  (name, x) ∈ COMPRESSIONS /\
  build_conf filter_id (PropsTuple (pre ++ [b; c; s; x])) =
    Ok (Some {[ "id" := VStr "blosc"; "blocksize" := VInt b; "clevel" := VInt c;
                "shuffle" := VInt s; "cname" := VStr name ]}) /\
  _filter_to_codec filter_id (PropsTuple (pre ++ [b; c; s; x])) =
    get_codec {[ "id" := VStr "blosc"; "blocksize" := VInt b; "clevel" := VInt c;
                 "shuffle" := VInt s; "cname" := VStr name ]}.
Proof.
  intros Hint Hblosc Hname.
  assert (Hconf : build_conf filter_id (PropsTuple (pre ++ [b; c; s; x])) =
                  Ok (Some {[ "id" := VStr "blosc"; "blocksize" := VInt b;
                              "clevel" := VInt c; "shuffle" := VInt s;
                              "cname" := VStr name ]})).
  { rewrite (build_conf_numeric _ _ _ Hint).
    rewrite decide_False by (by apply blosc_id_nonzero).
    rewrite last_four_app, BloscProperties_init_four.
    unfold get_filters, get_cname_from_code. rewrite Hblosc, Hname. simpl.
    by rewrite blosc_conf_normal_form. }
  split; [by apply blosc_compressor_codes_sound |].
  split; [done |].
  unfold _filter_to_codec. by rewrite Hconf.
Qed.

(** C8.  A numeric blosc filter whose [cname_code] has no entry in the
    reverse table fails with [KeyError], a [LookupError]; no descriptor is
    built. *)
Theorem blosc_unknown_cname_code_raises
    (filter_id : string) (n : Z) (pre : list Z) (b c s x : Z) :
  int filter_id = Ok n ->
  plugin_filter_name n = Some "blosc" ->
  blosc_compressor_codes !! x = None ->
  build_conf filter_id (PropsTuple (pre ++ [b; c; s; x])) = Raise KeyError /\
  _filter_to_codec filter_id (PropsTuple (pre ++ [b; c; s; x])) = Raise KeyError /\
  is_LookupError KeyError = true.
Proof.
  intros Hint Hblosc Hcode.
  assert (Hconf : build_conf filter_id (PropsTuple (pre ++ [b; c; s; x])) = Raise KeyError).
  { rewrite (build_conf_numeric _ _ _ Hint).
    rewrite decide_False by (by apply blosc_id_nonzero).
    rewrite last_four_app, BloscProperties_init_four.
    unfold get_filters, get_cname_from_code. by rewrite Hblosc, Hcode. }
  split; [done |]. split; [| reflexivity].
  unfold _filter_to_codec. by rewrite Hconf.
Qed.

(** C9.  On the numeric path a descriptor is assigned only for a blosc
    filter given with a tuple: a numeric id whose filter name is not
    ["blosc"], or whose parameters are not a tuple, leaves [conf] unbound
    and the call fails with [UnboundLocalError]; conversely a numeric id
    on which the call returns a codec is a blosc filter with tuple
    parameters. *)
Theorem numeric_path_only_blosc_tuple
    (filter_id : string) (n : Z) (p : filter_properties_t) :
  int filter_id = Ok n ->
  (forall name, plugin_filter_name n = Some name ->
     name <> "blosc" \/ is_tuple p = false ->
     build_conf filter_id p = Ok None /\
     _filter_to_codec filter_id p = Raise UnboundLocalError) /\
  (forall c, _filter_to_codec filter_id p = Ok c ->
     plugin_filter_name n = Some "blosc" /\ is_tuple p = true).
Proof.
  intros Hint. split.
  - intros name Hname Hcase.
    assert (Hconf : build_conf filter_id p = Ok None).
    { rewrite (build_conf_numeric _ _ _ Hint).
      case_decide; [done |].
      unfold get_filters. rewrite Hname. simpl.
      destruct p as [| |t]; try done.
      destruct Hcase as [Hne | Htup]; [| done].
      by rewrite decide_False. }
    split; [done |]. unfold _filter_to_codec. by rewrite Hconf.
  - intros c0. unfold _filter_to_codec.
    rewrite (build_conf_numeric _ _ _ Hint).
    case_decide; [done |].
    unfold get_filters. destruct (plugin_filter_name n) as [name|]; [| done].
    simpl. destruct p as [| |t]; try done.
    case_decide as Hid; [| done]. by subst.
Qed.

(** ** String filter ids *)

(** X19.  A non-empty filter id that
    [int] rejects is normalised through the alias table, which sends
    ["gzip"] to ["zlib"] and leaves other names alone; the descriptor is
    [{id: normalised}], with the passed parameter added under ["level"]
    exactly when the normalised id is ["zlib"]; that descriptor is what the
    codec registry is asked for. *)
Theorem string_filter_descriptor (filter_id : string) (p : filter_properties_t) :
  int filter_id = Raise ValueError ->
  filter_id <> "" ->
  standard_id filter_id = default filter_id (_non_standard_filters !! filter_id) /\
  standard_id "gzip" = "zlib" /\
  exists conf : config,
    build_conf filter_id p = Ok (Some conf) /\
    _filter_to_codec filter_id p = get_codec conf /\
    conf = (if decide (standard_id filter_id = "zlib")
            then {[ "id" := VStr "zlib"; "level" := value_of_properties p ]}
            else {[ "id" := VStr (standard_id filter_id) ]}).
Proof.
  intros Hint Hne.
  split; [unfold standard_id; by destruct (_non_standard_filters !! filter_id) |].
  split; [reflexivity |].
  pose proof (build_conf_string _ p Hint) as Hconf.
  rewrite decide_False in Hconf by done.
  unfold _filter_to_codec. rewrite Hconf.
  case_decide; eexists; (split; [reflexivity |]); split; reflexivity.
Qed.

(** ** The codec registry *)

Lemma get_codec_resolves (conf : config) :
  is_Ok (get_codec conf) <-> resolves conf.
Proof.
  unfold get_codec, resolves, is_Ok. split.
  - intros [c Hc]. destruct (conf !! "id") as [[| | id |]|]; try done.
    case_decide; [| done]. by exists id.
  - intros (id & -> & Hin). rewrite decide_True by done. by eexists.
Qed.

Lemma get_codec_unknown (conf : config) :
  ~ resolves conf -> get_codec conf = Raise UnknownCodecError.
Proof.
  intros Hno. unfold get_codec.
  destruct (conf !! "id") as [[| | id |]|] eqn:Hid; try done.
  case_decide; [| done]. destruct Hno. by exists id.
Qed.

(** C5.  When the descriptor built for a filter does not resolve in the
    codec registry, [_filter_to_codec] raises [UnknownCodecError]; it
    returns no codec. *)
Theorem unresolved_descriptor_is_fatal
    (filter_id : string) (p : filter_properties_t) (conf : config) :
  build_conf filter_id p = Ok (Some conf) ->
  ~ resolves conf ->
  _filter_to_codec filter_id p = Raise UnknownCodecError /\
  forall c, _filter_to_codec filter_id p <> Ok c.
Proof.
  intros Hconf Hno.
  assert (H : _filter_to_codec filter_id p = Raise UnknownCodecError).
  { unfold _filter_to_codec. rewrite Hconf. simpl. by apply get_codec_unknown. }
  split; [done |]. intros c. by rewrite H.
Qed.

(** A codec that is returned was built from a descriptor that resolves. *)
Lemma filter_to_codec_registered (filter_id : string) (p : filter_properties_t) (c : Codec) :
  _filter_to_codec filter_id p = Ok c -> codec_id c ∈ codec_registry.
Proof.
  unfold _filter_to_codec.
  destruct (build_conf filter_id p) as [[conf|]|]; simpl; try done.
  unfold get_codec. destruct (conf !! "id") as [[| | id |]|]; try done.
  case_decide; [| done]. intros [= <-]. done.
Qed.

(** ** The filter pipeline *)

Lemma codecs_loop_spec (items : list (string * filter_properties_t)) (acc cs : list Codec) :
  codecs_loop items acc = Ok cs <->
  exists tail, cs = (acc ++ tail)%list /\
    Forall2 (fun item c => _filter_to_codec item.1 item.2 = Ok c) items tail.
Proof.
  revert acc. induction items as [|[filter_id p] rest IH]; intros acc; simpl.
  - split.
    + intros [= <-]. exists []. by rewrite app_nil_r.
    + intros (tail & -> & Hall). apply Forall2_nil_inv_l in Hall as ->.
      by rewrite app_nil_r.
  - destruct (_filter_to_codec filter_id p) as [c|e] eqn:Hc; simpl.
    + rewrite IH. split.
      * intros (tail & -> & Hall). exists (c :: tail).
        split; [by rewrite <- app_assoc |]. by constructor.
      * intros (tail & -> & Hall).
        apply Forall2_cons_inv_l in Hall as (c' & tail' & Hc' & Hall & ->).
        simpl in Hc'. rewrite Hc in Hc'. injection Hc' as <-.
        exists tail'. split; [by rewrite <- app_assoc |]. done.
    + split; [done |]. intros (tail & _ & Hall).
      apply Forall2_cons_inv_l in Hall as (c' & tail' & Hc' & _ & _).
      simpl in Hc'. by rewrite Hc in Hc'.
Qed.

Lemma codecs_from_dataset_Forall2 (dataset : Dataset) (cs : list Codec) :
  codecs_from_dataset dataset = Ok cs <->
  Forall2 (fun item c => _filter_to_codec item.1 item.2 = Ok c) (_filters dataset) cs.
Proof.
  unfold codecs_from_dataset. rewrite codecs_loop_spec. simpl. split.
  - by intros (tail & -> & Hall).
  - intros Hall. by exists cs.
Qed.

(** C6.  [codecs_from_dataset] returns [cs] exactly when [cs] is as long
    as the filter pipeline and its i-th codec is what [_filter_to_codec]
    returns for the i-th filter; and it does return such a list whenever
    every filter of the pipeline resolves. *)
Theorem codecs_from_dataset_preserves_order (dataset : Dataset) :
  (forall cs : list Codec,
     codecs_from_dataset dataset = Ok cs <->
     length (_filters dataset) = length cs /\
     forall (i : nat) (item : string * filter_properties_t) (c : Codec),
       _filters dataset !! i = Some item -> cs !! i = Some c ->
       _filter_to_codec item.1 item.2 = Ok c) /\
  (Forall (fun item => is_Ok (_filter_to_codec item.1 item.2)) (_filters dataset) ->
   is_Ok (codecs_from_dataset dataset)).
Proof.
  split.
  - intros cs. rewrite codecs_from_dataset_Forall2.
    apply Forall2_same_length_lookup.
  - intros Hall. unfold is_Ok.
    assert (exists cs, Forall2 (fun item c => _filter_to_codec item.1 item.2 = Ok c)
                         (_filters dataset) cs) as [cs Hcs].
    { induction Hall as [|item rest [c Hc] _ [cs IH]].
      - exists []. constructor.
      - exists (c :: cs). by constructor. }
    exists cs. by apply codecs_from_dataset_Forall2.
Qed.

(** ** The linear transform *)

(** [!=] is the negation of [==], also in when it has a truth value. *)
Lemma bool_of_py_ne (v : number) (k : Z) :
  bool_of (py_ne v k) = negb <$> bool_of (py_eq v k).
Proof.
  destruct v as [n|x|[|x [|y xs]]]; reflexivity.
Qed.

(** The guard of line 83 is false exactly when the spec's condition,
    [scale == 1 and offset == 0], is true. *)
Lemma guard_false_iff (a b : number) :
  py_or (py_ne a 1) (py_ne b 0) = Ok false <->
  py_and (py_eq a 1) (py_eq b 0) = Ok true.
Proof.
  unfold py_or, py_and. rewrite !bool_of_py_ne.
  destruct (bool_of (py_eq a 1)) as [[]|]; simpl;
    destruct (bool_of (py_eq b 0)) as [[]|]; simpl;
    split; intros H; try done.
Qed.

Lemma cfcodec_None_iff (dataset : Dataset) :
  cfcodec_from_dataset dataset = Ok None <->
  exists m, derive_mapping dataset = Ok m /\
    py_or (py_ne m.1 1) (py_ne m.2 0) = Ok false.
Proof.
  unfold cfcodec_from_dataset.
  destruct (derive_mapping dataset) as [m|e]; simpl.
  - destruct (py_or (py_ne m.1 1) (py_ne m.2 0)) as [[]|e] eqn:Hg; simpl.
    + split; [done |]. intros (m' & [= <-] & H). congruence.
    + split; [by exists m |]. done.
    + split; [done |]. intros (m' & [= <-] & H). congruence.
  - split; [done |]. by intros (m' & ? & ?).
Qed.

(** C3.  The deriver returns [None] exactly when the derived scale
    equals 1 and the derived offset equals 0; in particular it returns
    [None] for a dataset that has neither a [scale_factor] nor an
    [add_offset] attribute. *)
Theorem cfcodec_absent_iff_identity (dataset : Dataset) :
  (cfcodec_from_dataset dataset = Ok None <->
   exists scale offset : number,
     derive_mapping dataset = Ok (scale, offset) /\
     py_and (py_eq scale 1) (py_eq offset 0) = Ok true) /\
  (attrs dataset !! "scale_factor" = None ->
   attrs dataset !! "add_offset" = None ->
   cfcodec_from_dataset dataset = Ok None).
Proof.
  split.
  - rewrite cfcodec_None_iff. split.
    + intros ([scale offset] & Hm & Hg). exists scale, offset.
      split; [done |]. by apply guard_false_iff.
    + intros (scale & offset & Hm & Hg). exists (scale, offset).
      split; [done |]. by apply guard_false_iff.
  - intros Hs Ho. unfold cfcodec_from_dataset, derive_mapping.
    rewrite Hs, Ho. reflexivity.
Qed.

(** C4.  With [scale_factor = [0.01]] and [add_offset = [5.0]] the deriver
    returns a transform whose scale is [1 / scale_factor[0]], which is
    [100.0]; whose offset is the attribute, equal to [5.0]; whose target
    dtype is a floating one; and whose [astype] is the raw dtype, whatever
    that dtype is. *)
Theorem cfcodec_scale_offset_present (dataset : Dataset) :
  attrs dataset !! "scale_factor" = Some (Array [one_hundredth]) ->
  attrs dataset !! "add_offset" = Some (Array [5%float]) ->
  exists cf : CFCodec,
    cfcodec_from_dataset dataset = Ok (Some cf) /\
    scale (codec cf) = Float64 (1 / one_hundredth) /\
    (1 / one_hundredth = 100)%float /\
    offset (codec cf) = Array [5%float] /\
    bool_of (py_eq (offset (codec cf)) 5) = Ok true /\
    is_floating (target_dtype cf) = true /\
    fso_dtype (codec cf) = target_dtype cf /\
    astype (codec cf) = dtype dataset.
Proof.
  intros Hs Ho. unfold cfcodec_from_dataset, derive_mapping.
  rewrite Hs, Ho. simpl.
  eexists. split; [reflexivity |]. simpl. repeat split.
Qed.


(** * Further properties *)

(** ** The reverse compressor table *)

Lemma reverse_table_untouched (l : list (string * Z)) (m : gmap Z string) (x : Z) :
  x ∉ l.*2 ->
  foldl (fun m kv => <[kv.2 := kv.1]> m) m l !! x = m !! x.
Proof.
  revert m. induction l as [|[k v] l IH]; intros m Hx; simpl in *; [done |].
  apply not_elem_of_cons in Hx as [Hne Hx].
  rewrite IH by done. by rewrite lookup_insert_ne.
Qed.

(** X1.  The validator of [cname] succeeds exactly on the codes that some
    compressor of the plugin's table has. *)
Theorem get_cname_from_code_domain (x : Z) :
  is_Ok (get_cname_from_code x) <-> x ∈ COMPRESSIONS.*2.
Proof.
  unfold get_cname_from_code, is_Ok.
  destruct (blosc_compressor_codes !! x) as [name|] eqn:Hx.
  - split; [intros _ | by eexists].
    apply blosc_compressor_codes_sound in Hx.
    apply list_elem_of_fmap. by exists (name, x).
  - apply blosc_compressor_codes_missing in Hx. split; [by intros [? ?] | done].
Qed.

Lemma blosc_compressor_codes_last
    (before after : list (string * Z)) (name : string) (x : Z) :
  COMPRESSIONS = (before ++ (name, x) :: after)%list ->
  x ∉ after.*2 ->
  blosc_compressor_codes !! x = Some name.
Proof.
  intros Htable Hafter. unfold blosc_compressor_codes.
  rewrite Htable, foldl_app. simpl.
  rewrite reverse_table_untouched by done.
  by rewrite lookup_insert_eq.
Qed.

(** X2.  When several names of the plugin's table carry the same code, the
    inverted table keeps the one listed last. *)
Theorem get_cname_from_code_last_entry
    (before after : list (string * Z)) (name : string) (x : Z) :
  COMPRESSIONS = (before ++ (name, x) :: after)%list ->
  x ∉ after.*2 ->
  get_cname_from_code x = Ok name.
Proof.
  intros Htable Hafter. unfold get_cname_from_code.
  by rewrite (blosc_compressor_codes_last before after name x).
Qed.

(** X3.  When no two compressors share a code, inverting the table is
    exact: the code of every listed name is mapped back to that name. *)
Theorem get_cname_from_code_inverts (name : string) (x : Z) :
  NoDup COMPRESSIONS.*2 ->
  (name, x) ∈ COMPRESSIONS ->
  get_cname_from_code x = Ok name.
Proof.
  intros Hnodup Hin.
  apply list_elem_of_split in Hin as (before & after & Htable).
  unfold get_cname_from_code.
  rewrite (blosc_compressor_codes_last before after name x); [done | done |].
  rewrite Htable, fmap_app, fmap_cons in Hnodup. simpl in Hnodup.
  apply NoDup_app in Hnodup as (_ & _ & Hnodup).
  by apply NoDup_cons in Hnodup as [Hx _].
Qed.

(** ** The blosc model *)

(** X4.  [BloscProperties] is built exactly when the three integer fields
    are given and the given [cname] code is in the reverse table; its
    fields are then the given integers and the name of that code. *)
Theorem BloscProperties_init_Ok_iff (kwargs : gmap string Z) (props : BloscProperties) :
  BloscProperties_init kwargs = Ok props <->
  kwargs !! "blocksize" = Some (blocksize props) /\
  kwargs !! "clevel" = Some (clevel props) /\
  kwargs !! "shuffle" = Some (shuffle props) /\
  exists code : Z,
    kwargs !! "cname" = Some code /\
    blosc_compressor_codes !! code = Some (cname props).
Proof.
  unfold BloscProperties_init, get_cname_from_code.
  destruct (kwargs !! "cname") as [code|]; simpl.
  - destruct (blosc_compressor_codes !! code) as [name|] eqn:Hcode; simpl.
    + destruct (kwargs !! "blocksize") as [b|], (kwargs !! "clevel") as [c|],
        (kwargs !! "shuffle") as [s|]; simpl;
        try (split; [done | by intros (? & ? & ? & ?)]).
      split.
      * intros [= <-]. simpl. repeat split. by exists code.
      * intros ([= ->] & [= ->] & [= ->] & code' & [= <-] & Hname).
        rewrite Hcode in Hname. injection Hname as ->. by destruct props.
    + split; [done |]. intros (_ & _ & _ & code' & [= <-] & Hname). congruence.
  - destruct (kwargs !! "blocksize"), (kwargs !! "clevel"), (kwargs !! "shuffle");
      simpl; (split; [done | by intros (_ & _ & _ & code' & ? & _)]).
Qed.

Lemma BloscProperties_init_raises (kwargs : gmap string Z) (e : exn) :
  BloscProperties_init kwargs = Raise e -> e = KeyError \/ e = ValidationError.
Proof.
  unfold BloscProperties_init, get_cname_from_code.
  destruct (kwargs !! "cname") as [code|]; simpl.
  - destruct (blosc_compressor_codes !! code); simpl.
    + destruct (kwargs !! "blocksize"), (kwargs !! "clevel"), (kwargs !! "shuffle");
        simpl; intros [= <-]; by right.
    + intros [= <-]. by left.
  - destruct (kwargs !! "blocksize"), (kwargs !! "clevel"), (kwargs !! "shuffle");
      simpl; intros [= <-]; by right.
Qed.

Lemma BloscProperties_init_short (t : list Z) :
  (length t < 4)%nat ->
  BloscProperties_init (list_to_map (zip BloscProperties_fields t)) =
  Raise ValidationError.
Proof.
  intros Hlen. destruct t as [|b [|c [|s [|x t]]]]; simpl in Hlen; try lia;
    unfold BloscProperties_init; simpl;
    repeat (rewrite lookup_insert_eq || (rewrite lookup_insert_ne by done)
            || rewrite lookup_empty); reflexivity.
Qed.

(** ** More on [_filter_to_codec] *)

Lemma int_raises_ValueError (s : string) (e : exn) :
  int s = Raise e -> e = ValueError.
Proof.
  unfold int. destruct (match rstrip (lstrip s) with
                        | String "+" r => digits 0 false r
                        | String "-" r => Z.opp <$> digits 0 false r
                        | _ => digits 0 false (rstrip (lstrip s))
                        end); [done |]. by intros [= <-].
Qed.

Lemma get_codec_raises (conf : config) (e : exn) :
  get_codec conf = Raise e -> e = UnknownCodecError.
Proof.
  unfold get_codec. destruct (conf !! "id") as [[| | id |]|];
    try (by intros [= <-]). case_decide; [done |]. by intros [= <-].
Qed.

(** X5.  A numeric filter id is used by its value only: two identifiers
    that [int] reads as the same integer resolve alike. *)
Theorem numeric_id_by_value
    (filter_id filter_id' : string) (n : Z) (p : filter_properties_t) :
  int filter_id = Ok n ->
  int filter_id' = Ok n ->
  _filter_to_codec filter_id p = _filter_to_codec filter_id' p.
Proof.
  intros H H'. unfold _filter_to_codec.
  by rewrite (build_conf_numeric _ _ _ H), (build_conf_numeric _ _ _ H').
Qed.

(** X6.  On the numeric path only the last four elements of the tuple are
    read: what precedes them does not change the result. *)
Theorem numeric_tuple_prefix_ignored
    (filter_id : string) (n : Z) (pre suffix : list Z) :
  int filter_id = Ok n ->
  length suffix = 4%nat ->
  _filter_to_codec filter_id (PropsTuple (pre ++ suffix)) =
  _filter_to_codec filter_id (PropsTuple suffix).
Proof.
  intros Hint Hlen.
  destruct suffix as [|b [|c [|s [|x [|y suffix]]]]]; simpl in Hlen; try lia.
  unfold _filter_to_codec. rewrite !(build_conf_numeric _ _ _ Hint).
  rewrite last_four_app.
  by assert (last_four [b; c; s; x] = [b; c; s; x]) as -> by reflexivity.
Qed.

(** X7.  A blosc filter whose tuple has fewer than four elements is
    refused: the [cname] field is missing and the model's validation
    fails. *)
Theorem blosc_short_tuple_rejected (filter_id : string) (n : Z) (t : list Z) :
  int filter_id = Ok n ->
  plugin_filter_name n = Some "blosc" ->
  (length t < 4)%nat ->
  _filter_to_codec filter_id (PropsTuple t) = Raise ValidationError.
Proof.
  intros Hint Hblosc Hlen. unfold _filter_to_codec.
  rewrite (build_conf_numeric _ _ _ Hint).
  rewrite decide_False by (by apply blosc_id_nonzero).
  rewrite last_four_short, BloscProperties_init_short by done.
  unfold get_filters. by rewrite Hblosc.
Qed.

(** X8.  [_filter_to_codec] ends in [UnboundLocalError] exactly when the
    identifier is empty, or is an integer that is zero, or is an integer
    that the plugin registry knows and that is not a blosc filter given
    with a tuple. *)
Theorem unbound_conf_iff (filter_id : string) (p : filter_properties_t) :
  _filter_to_codec filter_id p = Raise UnboundLocalError <->
  filter_id = "" \/
  exists n : Z, int filter_id = Ok n /\
    (n = 0 \/
     exists name : string, plugin_filter_name n = Some name /\
       (name <> "blosc" \/ is_tuple p = false)).
Proof.
  unfold _filter_to_codec. destruct (int filter_id) as [n|e] eqn:Hint.
  - rewrite (build_conf_numeric _ _ _ Hint).
    assert (Hne : filter_id <> "") by (intros ->; discriminate).
    destruct (decide (n = 0)) as [->|Hn]; simpl.
    { split; [| done]. intros _. right. exists 0. split; [done | by left]. }
    unfold get_filters. destruct (plugin_filter_name n) as [name|] eqn:Hname; simpl.
    + assert (Hno : forall q, name <> "blosc" \/ is_tuple q = false ->
                (@Ok (option config) None ≫= fun conf =>
                   match conf with
                   | Some c => get_codec c
                   | None => Raise UnboundLocalError
                   end) = Raise UnboundLocalError <->
                filter_id = "" \/
                exists n0 : Z, Ok n = Ok n0 /\
                  (n0 = 0 \/ exists name0, plugin_filter_name n0 = Some name0 /\
                     (name0 <> "blosc" \/ is_tuple q = false))).
      { intros q Hq. split; [| done]. intros _. right. exists n.
        split; [done |]. right. by exists name. }
      destruct p as [| |t]; try (apply Hno; by right).
      case_decide as Hid; [| apply Hno; by left]. subst name.
      split.
      * destruct (BloscProperties_init _) as [props|e] eqn:Hinit; simpl.
        -- intros H. by apply get_codec_raises in H.
        -- intros [= ->]. by apply BloscProperties_init_raises in Hinit as [|].
      * intros [| (n0 & [= <-] & [| (name0 & Hname0 & [|])])]; try done.
        rewrite Hname in Hname0. by injection Hname0 as <-.
    + split; [done |].
      intros [| (n0 & [= <-] & [| (name0 & Hname0 & _)])]; try done.
      by rewrite Hname in Hname0.
  - apply int_raises_ValueError in Hint as Hv. subst e.
    rewrite (build_conf_string _ p Hint).
    destruct (decide (filter_id = "")) as [->|Hne]; simpl.
    { split; [by left | done]. }
    split.
    + case_decide; simpl; intros Hg; by apply get_codec_raises in Hg.
    + intros [| (n0 & ? & _)]; done.
Qed.

(** X9.  A string filter's parameters reach the descriptor only through
    ["level"]: unless the normalised id is ["zlib"], the result does not
    depend on them. *)
Theorem string_filter_parameters_dropped
    (filter_id : string) (p p' : filter_properties_t) :
  int filter_id = Raise ValueError ->
  standard_id filter_id <> "zlib" ->
  _filter_to_codec filter_id p = _filter_to_codec filter_id p'.
Proof.
  intros Hint Hid. unfold _filter_to_codec.
  rewrite !(build_conf_string _ _ Hint).
  case_decide; [done |]. by rewrite !decide_False.
Qed.

(** X10.  The alias and the name it stands for give the same result:
    ["gzip"] resolves as ["zlib"] does, whatever the parameters. *)
Theorem gzip_resolves_as_zlib (p : filter_properties_t) :
  _filter_to_codec "gzip" p = _filter_to_codec "zlib" p.
Proof. reflexivity. Qed.

(** X11.  A codec that is returned is registered under its id, which is
    the normalised identifier on the string path and ["blosc"] on the
    numeric one; its parameters no longer hold the ["id"] entry. *)
Theorem returned_codec_id (filter_id : string) (p : filter_properties_t) (c : Codec) :
  _filter_to_codec filter_id p = Ok c ->
  codec_id c ∈ codec_registry /\
  codec_config c !! "id" = None /\
  (int filter_id = Raise ValueError /\ codec_id c = standard_id filter_id \/
   exists n : Z, int filter_id = Ok n /\ codec_id c = "blosc").
Proof.
  intros Hc. split; [by apply filter_to_codec_registered in Hc |].
  assert (Hget : forall conf id, conf !! "id" = Some (VStr id) ->
            get_codec conf = Ok c ->
            codec_config c !! "id" = None /\ codec_id c = id).
  { intros conf id Hid. unfold get_codec. rewrite Hid.
    case_decide; [| done]. intros [= <-]. simpl.
    split; [apply lookup_delete_eq | done]. }
  unfold _filter_to_codec in Hc. destruct (int filter_id) as [n|e] eqn:Hint.
  - rewrite (build_conf_numeric _ _ _ Hint) in Hc.
    case_decide; [done |].
    destruct (get_filters n) as [name|]; simpl in Hc; [| done].
    destruct p as [| |t]; try done.
    case_decide as Hid; [| done]. subst name.
    destruct (BloscProperties_init _) as [props|]; simpl in Hc; [| done].
    destruct (Hget _ "blosc" (lookup_insert_eq _ _ _) Hc) as [Hcfg Hcid].
    split; [done |]. right. by exists n.
  - apply int_raises_ValueError in Hint as Hv. subst e.
    rewrite (build_conf_string _ p Hint) in Hc.
    case_decide; [done |]. case_decide as Hz; simpl in Hc.
    + destruct (Hget _ "zlib" (lookup_insert_eq _ _ _) Hc) as [Hcfg Hcid].
      split; [done |]. left. by rewrite Hz.
    + destruct (Hget _ _ (lookup_singleton_eq _ _) Hc) as [Hcfg Hcid].
      split; [done |]. by left.
Qed.

Lemma tuple_last_four_split (t : list Z) :
  (4 <= length t)%nat ->
  exists (pre : list Z) (b c s x : Z), t = (pre ++ [b; c; s; x])%list.
Proof.
  intros Hlen. exists (take (length t - 4) t).
  assert (Hdrop : length (drop (length t - 4) t) = 4%nat)
    by (rewrite length_drop; lia).
  destruct (drop (length t - 4) t) as [|b [|c [|s [|x [|y l]]]]] eqn:Hd;
    simpl in Hdrop; try lia.
  exists b, c, s, x. by rewrite <- Hd, take_drop.
Qed.

Lemma last_of_four (pre : list Z) (b c s x : Z) :
  last (pre ++ [b; c; s; x]) = Some x.
Proof. by rewrite last_app. Qed.

Lemma get_codec_id_Ok (conf : config) (id : string) :
  conf !! "id" = Some (VStr id) ->
  is_Ok (get_codec conf) <-> id ∈ codec_registry.
Proof.
  intros Hid. rewrite get_codec_resolves. unfold resolves. split.
  - intros (id' & Hid' & Hin). rewrite Hid in Hid'. by injection Hid' as <-.
  - intros Hin. by exists id.
Qed.

Lemma not_is_Ok_Raise {A : Type} (e : exn) : ~ is_Ok (@Raise A e).
Proof. by intros [a Ha]. Qed.


(** X18.  [_filter_to_codec] returns a codec in two cases only: a
    non-empty identifier that [int] rejects, whose normalised id is
    registered; or a non-zero integer that the plugin registry names
    ["blosc"], given with a tuple of at least four elements whose last one
    is a compressor code of the plugin's table, ["blosc"] being
    registered.  (Whether the registry then builds the codec is the
    registry's matter, so this is a necessary condition only.) *)
Theorem filter_to_codec_Ok_only_if (filter_id : string) (p : filter_properties_t) :
  is_Ok (_filter_to_codec filter_id p) ->
  (int filter_id = Raise ValueError /\ filter_id <> "" /\
   standard_id filter_id ∈ codec_registry) \/
  (exists (n : Z) (t : list Z) (x : Z),
     int filter_id = Ok n /\ n <> 0 /\
     plugin_filter_name n = Some "blosc" /\
     p = PropsTuple t /\ (4 <= length t)%nat /\
     last t = Some x /\ x ∈ COMPRESSIONS.*2 /\
     "blosc" ∈ codec_registry).
Proof.
  unfold _filter_to_codec. destruct (int filter_id) as [n|e] eqn:Hint.
  - rewrite (build_conf_numeric _ _ _ Hint).
    destruct p as [| |t].
    + case_decide; [by intros ?%not_is_Ok_Raise |].
      destruct (get_filters n); by intros ?%not_is_Ok_Raise.
    + case_decide; [by intros ?%not_is_Ok_Raise |].
      destruct (get_filters n); by intros ?%not_is_Ok_Raise.
    + destruct (le_lt_dec 4 (length t)) as [Hlen|Hlen].
      * destruct (tuple_last_four_split t Hlen) as (pre & b & c & s & x & ->).
        rewrite last_four_app, BloscProperties_init_four.
        case_decide as Hn; [by intros ?%not_is_Ok_Raise |].
        unfold get_filters.
        destruct (plugin_filter_name n) as [name|] eqn:Hname;
          [| by intros ?%not_is_Ok_Raise].
        unfold mbind at 2, result_bind.
        case_decide as Hid; [subst name | by intros ?%not_is_Ok_Raise].
        unfold get_cname_from_code.
        destruct (blosc_compressor_codes !! x) as [name|] eqn:Hx;
          [| by intros ?%not_is_Ok_Raise].
        unfold mbind, result_bind.
        rewrite (get_codec_id_Ok _ "blosc") by apply lookup_insert_eq.
        intros Hreg. right. exists n, (pre ++ [b; c; s; x])%list, x.
        repeat split; try done.
        -- apply last_of_four.
        -- apply list_elem_of_fmap. exists (name, x).
           split; [done | by apply blosc_compressor_codes_sound].
      * rewrite last_four_short, BloscProperties_init_short by done.
        case_decide; [by intros ?%not_is_Ok_Raise |].
        destruct (get_filters n) as [name|]; [| by intros ?%not_is_Ok_Raise].
        unfold mbind, result_bind.
        case_decide; by intros ?%not_is_Ok_Raise.
  - apply int_raises_ValueError in Hint as Hv. subst e.
    rewrite (build_conf_string _ p Hint).
    case_decide as Hne; [by intros ?%not_is_Ok_Raise |].
    case_decide as Hz; simpl.
    + rewrite (get_codec_id_Ok _ "zlib") by apply lookup_insert_eq.
      intros Hreg. left. by rewrite Hz.
    + rewrite (get_codec_id_Ok _ (standard_id filter_id))
        by apply lookup_singleton_eq.
      intros Hreg. by left.
Qed.

(** ** More on [codecs_from_dataset] *)

Lemma codecs_loop_app (l1 l2 : list (string * filter_properties_t)) (acc : list Codec) :
  codecs_loop (l1 ++ l2) acc = cs ← codecs_loop l1 acc; codecs_loop l2 cs.
Proof.
  revert acc. induction l1 as [|[filter_id p] l1 IH]; intros acc; simpl; [done |].
  destruct (_filter_to_codec filter_id p); simpl; [apply IH | done].
Qed.

Lemma codecs_loop_resolving (l : list (string * filter_properties_t)) (acc : list Codec) :
  Forall (fun item => is_Ok (_filter_to_codec item.1 item.2)) l ->
  is_Ok (codecs_loop l acc).
Proof.
  intros Hall. revert acc.
  induction Hall as [|[filter_id p] l [c Hc] _ IH]; intros acc; simpl.
  - by eexists.
  - simpl in Hc. rewrite Hc. simpl. apply IH.
Qed.

(** X12.  The first filter of the pipeline that fails decides the outcome:
    its exception is the one [codecs_from_dataset] raises, whatever
    follows it. *)
Theorem first_failing_filter_decides
    (dataset : Dataset) (before after : list (string * filter_properties_t))
    (filter_id : string) (p : filter_properties_t) (e : exn) :
  _filters dataset = (before ++ (filter_id, p) :: after)%list ->
  Forall (fun item => is_Ok (_filter_to_codec item.1 item.2)) before ->
  _filter_to_codec filter_id p = Raise e ->
  codecs_from_dataset dataset = Raise e.
Proof.
  intros Hfilters Hbefore Hfail. unfold codecs_from_dataset.
  rewrite Hfilters, codecs_loop_app.
  destruct (codecs_loop_resolving before [] Hbefore) as [cs ->]. simpl.
  by rewrite Hfail.
Qed.

(** X13.  Pipelines compose: the codecs of a pipeline that is one pipeline
    followed by another are the codecs of the first followed by the
    codecs of the second, and it resolves exactly when both do. *)
Theorem codecs_from_dataset_app (dataset first second : Dataset) (cs : list Codec) :
  _filters dataset = (_filters first ++ _filters second)%list ->
  codecs_from_dataset dataset = Ok cs <->
  exists cs1 cs2 : list Codec,
    cs = (cs1 ++ cs2)%list /\
    codecs_from_dataset first = Ok cs1 /\
    codecs_from_dataset second = Ok cs2.
Proof.
  intros Hfilters. rewrite codecs_from_dataset_Forall2, Hfilters, Forall2_app_inv_l.
  split.
  - intros (cs1 & cs2 & H1 & H2 & ->). exists cs1, cs2.
    by rewrite !codecs_from_dataset_Forall2.
  - intros (cs1 & cs2 & -> & H1 & H2). exists cs1, cs2.
    by rewrite <- !codecs_from_dataset_Forall2.
Qed.

(** ** More on [cfcodec_from_dataset] *)

(** X14.  A transform that is returned is consistent: its scale and offset
    are the derived ones, the float type was chosen for the raw dtype and
    for exactly that scale and offset, the codec decodes into the target
    dtype and encodes as the raw dtype. *)
Theorem cfcodec_consistent (dataset : Dataset) (cf : CFCodec) :
  cfcodec_from_dataset dataset = Ok (Some cf) ->
  derive_mapping dataset = Ok (scale (codec cf), offset (codec cf)) /\
  target_dtype cf =
    FloatDtype (_choose_float_dtype (dtype dataset)
                  {[ "add_offset" := offset (codec cf);
                     "scale_factor" := scale (codec cf) ]}) /\
  fso_dtype (codec cf) = target_dtype cf /\
  astype (codec cf) = dtype dataset.
Proof.
  unfold cfcodec_from_dataset.
  destruct (derive_mapping dataset) as [[s o]|]; simpl; [| done].
  destruct (py_or _ _) as [[]|]; simpl; try done.
  intros [= <-]. simpl. repeat split.
Qed.

(** X15.  When the scale differs from 1 the offset is not examined: a
    transform is returned with the attribute's offset, whatever its shape,
    or with 0 when there is none. *)
Theorem scale_decides_before_offset (dataset : Dataset) (x : float) (xs : list float) :
  attrs dataset !! "scale_factor" = Some (Array (x :: xs)) ->
  PrimFloat.eqb (1 / x) 1 = false ->
  exists cf : CFCodec,
    cfcodec_from_dataset dataset = Ok (Some cf) /\
    scale (codec cf) = Float64 (1 / x) /\
    offset (codec cf) = default (PyInt 0) (attrs dataset !! "add_offset").
Proof.
  intros Hs Hne. unfold cfcodec_from_dataset, derive_mapping. rewrite Hs. simpl.
  unfold py_or. simpl. change (float_of_Z 1) with 1%float. rewrite Hne. simpl.
  eexists. split; [reflexivity |]. simpl. split; [done |].
  by destruct (attrs dataset !! "add_offset").
Qed.

(** X16.  When the scale is 1, an [add_offset] array of two or more
    elements has no truth value once compared with 0: the deriver raises
    [ValueError], even if every element is zero. *)
Theorem ambiguous_offset_raises (dataset : Dataset) (xs : list float) :
  attrs dataset !! "scale_factor" = None \/
  (exists (x : float) (rest : list float),
     attrs dataset !! "scale_factor" = Some (Array (x :: rest)) /\
     PrimFloat.eqb (1 / x) 1 = true) ->
  attrs dataset !! "add_offset" = Some (Array xs) ->
  (2 <= length xs)%nat ->
  cfcodec_from_dataset dataset = Raise ValueError.
Proof.
  intros Hscale Ho Hlen. unfold cfcodec_from_dataset, derive_mapping. rewrite Ho.
  destruct xs as [|a [|b xs]]; simpl in Hlen; try lia.
  destruct Hscale as [-> | (x & rest & -> & Heq)]; simpl; [reflexivity |].
  unfold py_or. simpl. change (float_of_Z 1) with 1%float. by rewrite Heq.
Qed.

End HdfFilters.

(** X17.  The string path consults neither the plugin registry nor the
    compressor table: for an identifier that [int] rejects, the result is
    the same under any two of them. *)
Theorem string_path_ignores_plugin
    (names names' : Z -> option string) (table table' : list (string * Z))
    (registry : gset string) (filter_id : string) (p : filter_properties_t) :
  int filter_id = Raise ValueError ->
  _filter_to_codec names table registry filter_id p =
  _filter_to_codec names' table' registry filter_id p.
Proof.
  intros Hint. unfold _filter_to_codec.
  by rewrite !(build_conf_string _ _ _ _ Hint).
Qed.

(** * The properties at concrete inputs *)

Example int_of_blosc_id : int "32001" = Ok 32001.
Proof. reflexivity. Qed.

Example int_strips_and_groups : int " -1_000 " = Ok (-1000).
Proof. reflexivity. Qed.

Example int_rejects_name : int "gzip" = Raise ValueError.
Proof. reflexivity. Qed.

Example int_rejects_double_underscore : int "1__0" = Raise ValueError.
Proof. reflexivity. Qed.

Example reverse_table_shipped :
  blosc_compressor_codes Blosc_COMPRESSIONS =
  {[ 0 := "blosclz"; 1 := "lz4"; 2 := "lz4hc"; 3 := "snappy"; 4 := "zlib"; 5 := "zstd" ]}.
Proof. reflexivity. Qed.

(** In the inverted table a later name replaces an earlier one with the
    same code. *)
Example reverse_table_last_wins :
  blosc_compressor_codes [("a", 7); ("b", 7)] !! 7 = Some "b".
Proof. reflexivity. Qed.

(** A blosc tuple that is too short to hold a compressor code is refused by
    the model's validation. *)
Example blosc_short_tuple :
  _filter_to_codec hdf5plugin_filter_name Blosc_COMPRESSIONS numcodecs_ids
    "32001" (PropsTuple [5; 1; 0]) = Raise ValidationError.
Proof. reflexivity. Qed.

(** C1 at filter id 32001 with the tuple [(2, 2, 4, 0, 5, 1, 1)]: the last
    four elements are [(0, 5, 1, 1)] and code 1 is ["lz4"]. *)
Lemma blosc_descriptor_from_last_four_witness :
  build_conf hdf5plugin_filter_name Blosc_COMPRESSIONS
    "32001" (PropsTuple [2; 2; 4; 0; 5; 1; 1]) =
    Ok (Some {[ "id" := VStr "blosc"; "blocksize" := VInt 0; "clevel" := VInt 5;
                "shuffle" := VInt 1; "cname" := VStr "lz4" ]}) /\
  _filter_to_codec hdf5plugin_filter_name Blosc_COMPRESSIONS numcodecs_ids
    "32001" (PropsTuple [2; 2; 4; 0; 5; 1; 1]) =
    Ok {| codec_id := "blosc";
          codec_config := {[ "blocksize" := VInt 0; "clevel" := VInt 5;
                             "shuffle" := VInt 1; "cname" := VStr "lz4" ]} |}.
Proof.
  destruct (blosc_descriptor_from_last_four
              hdf5plugin_filter_name Blosc_COMPRESSIONS numcodecs_ids eq_refl
              "32001" 32001 [2; 2; 4] 0 5 1 1 "lz4" eq_refl eq_refl eq_refl)
    as (_ & Hconf & Hcodec).
  split; [exact Hconf |].
  etransitivity; [exact Hcodec | reflexivity].
Defined.

(** C8 at filter id 32001 with compressor code 9, which the plugin's table
    does not have. *)
Lemma blosc_unknown_cname_code_raises_witness :
  _filter_to_codec hdf5plugin_filter_name Blosc_COMPRESSIONS numcodecs_ids
    "32001" (PropsTuple [2; 2; 4; 0; 5; 1; 9]) = Raise KeyError.
Proof.
  destruct (blosc_unknown_cname_code_raises
              hdf5plugin_filter_name Blosc_COMPRESSIONS numcodecs_ids eq_refl
              "32001" 32001 [2; 2; 4] 0 5 1 9 eq_refl eq_refl eq_refl)
    as (_ & Hcodec & _).
  exact Hcodec.
Defined.

(** C9 at filter id 32015, which the plugin registry knows as ["zstd"]. *)
Lemma numeric_path_only_blosc_tuple_witness :
  _filter_to_codec hdf5plugin_filter_name Blosc_COMPRESSIONS numcodecs_ids
    "32015" (PropsTuple [3]) = Raise UnboundLocalError.
Proof.
  destruct (numeric_path_only_blosc_tuple
              hdf5plugin_filter_name Blosc_COMPRESSIONS numcodecs_ids
              "32015" 32015 (PropsTuple [3]) eq_refl) as [Hfail _].
  apply (Hfail "zstd"); [reflexivity | left; discriminate].
Defined.

(** C7 at its failing inputs.  The id 32015 parses as an integer and is
    registered, as ["zstd"], yet no descriptor is built for it and the call
    ends in [UnboundLocalError]; the id 0 parses as an integer and takes
    neither branch. *)
Theorem numeric_filter_falls_through :
  int "32015" = Ok 32015 /\
  hdf5plugin_filter_name 32015 = Some "zstd" /\
  "zstd" ∈ numcodecs_ids /\
  build_conf hdf5plugin_filter_name Blosc_COMPRESSIONS "32015" (PropsTuple [3]) = Ok None /\
  _filter_to_codec hdf5plugin_filter_name Blosc_COMPRESSIONS numcodecs_ids
    "32015" (PropsTuple [3]) = Raise UnboundLocalError /\
  int "0" = Ok 0 /\
  _filter_to_codec hdf5plugin_filter_name Blosc_COMPRESSIONS numcodecs_ids
    "0" PropsNone = Raise UnboundLocalError.
Proof.
  repeat split; try reflexivity; set_solver.
Qed.


(** X19 at ["gzip"] with level 4. *)
Lemma string_filter_descriptor_witness :
  build_conf hdf5plugin_filter_name Blosc_COMPRESSIONS "gzip" (PropsInt 4) =
    Ok (Some {[ "id" := VStr "zlib"; "level" := VInt 4 ]}) /\
  _filter_to_codec hdf5plugin_filter_name Blosc_COMPRESSIONS numcodecs_ids
    "gzip" (PropsInt 4) =
    Ok {| codec_id := "zlib"; codec_config := {[ "level" := VInt 4 ]} |}.
Proof.
  destruct (string_filter_descriptor
              hdf5plugin_filter_name Blosc_COMPRESSIONS numcodecs_ids
              "gzip" (PropsInt 4) eq_refl ltac:(discriminate))
    as (_ & _ & conf & Hconf & Hcodec & ->).
  split; [exact Hconf |].
  etransitivity; [exact Hcodec | reflexivity].
Defined.

(** C5 at h5py's ["lzf"] filter, for which numcodecs has no codec. *)
Lemma unresolved_descriptor_is_fatal_witness :
  _filter_to_codec hdf5plugin_filter_name Blosc_COMPRESSIONS numcodecs_ids
    "lzf" PropsNone = Raise UnknownCodecError.
Proof.
  refine (proj1 (unresolved_descriptor_is_fatal
                   hdf5plugin_filter_name Blosc_COMPRESSIONS numcodecs_ids
                   "lzf" PropsNone {[ "id" := VStr "lzf" ]} eq_refl _)).
  intros (id & Hid & Hin).
  rewrite lookup_singleton_eq in Hid. injection Hid as <-.
  revert Hin. apply (bool_decide_eq_false_1 _). reflexivity.
Defined.

(** C6 on a shuffle filter followed by gzip: the codecs come out in the
    order of the pipeline. *)
Lemma codecs_from_dataset_preserves_order_witness :
  codecs_from_dataset hdf5plugin_filter_name Blosc_COMPRESSIONS numcodecs_ids
    packed_int16 =
  Ok [ {| codec_id := "shuffle"; codec_config := ∅ |};
       {| codec_id := "zlib"; codec_config := {[ "level" := VInt 4 ]} |} ].
Proof.
  apply (proj1 (codecs_from_dataset_preserves_order
                  hdf5plugin_filter_name Blosc_COMPRESSIONS numcodecs_ids
                  packed_int16)).
  split; [reflexivity |].
  intros [|[|i]] item c Hitem Hc; simpl in Hitem, Hc;
    [injection Hitem as <-; injection Hc as <-; reflexivity ..| discriminate].
Defined.

(** C3 on a dataset without attributes. *)
Lemma cfcodec_absent_iff_identity_witness :
  cfcodec_from_dataset choose_float64 plain_int16 = Ok None.
Proof.
  apply (proj2 (cfcodec_absent_iff_identity choose_float64 plain_int16));
    reflexivity.
Defined.

(** C4 on a 16-bit integer variable. *)
Lemma cfcodec_scale_offset_present_witness :
  cfcodec_from_dataset choose_float64 packed_int16 =
  Ok (Some {| target_dtype := FloatDtype float64;
              codec := {| offset := Array [5%float];
                          scale := Float64 100%float;
                          fso_dtype := FloatDtype float64;
                          astype := IntDtype true 2 |} |}).
Proof.
  destruct (cfcodec_scale_offset_present choose_float64 packed_int16 eq_refl eq_refl)
    as (cf & Hcf & _).
  reflexivity.
Defined.


(** A scalar [add_offset] on its own is kept as it is. *)
Example scalar_add_offset_kept :
  cfcodec_from_dataset choose_float64
    {| attrs := {[ "add_offset" := Float64 5%float ]};
       dtype := IntDtype true 2;
       _filters := [] |} =
  Ok (Some {| target_dtype := FloatDtype float64;
              codec := {| offset := Float64 5%float;
                          scale := PyInt 1;
                          fso_dtype := FloatDtype float64;
                          astype := IntDtype true 2 |} |}).
Proof. reflexivity. Qed.

(** An [add_offset] array of two zeros has no truth value when compared
    with [0]: the guard of line 83 raises. *)
Example two_element_offset_is_ambiguous :
  cfcodec_from_dataset choose_float64
    {| attrs := {[ "add_offset" := Array [0%float; 0%float] ]};
       dtype := IntDtype true 2;
       _filters := [] |} = Raise ValueError.
Proof. reflexivity. Qed.

(** * The further properties at concrete inputs *)

(** X2 on a table where two names carry code 7. *)
Lemma get_cname_from_code_last_entry_witness :
  get_cname_from_code [("a", 7); ("b", 7); ("c", 1)] 7 = Ok "b".
Proof.
  apply (get_cname_from_code_last_entry
           [("a", 7); ("b", 7); ("c", 1)] [("a", 7)] [("c", 1)] "b" 7 eq_refl).
  apply (bool_decide_unpack _). reflexivity.
Defined.

(** X3 on the table hdf5plugin ships, whose codes are distinct. *)
Lemma get_cname_from_code_inverts_witness :
  get_cname_from_code Blosc_COMPRESSIONS 5 = Ok "zstd".
Proof.
  apply (get_cname_from_code_inverts Blosc_COMPRESSIONS "zstd" 5);
    apply (bool_decide_unpack _); reflexivity.
Defined.

(** X5: the blosc id written with a sign, padding and a digit separator. *)
Lemma numeric_id_by_value_witness :
  _filter_to_codec hdf5plugin_filter_name Blosc_COMPRESSIONS numcodecs_ids
    " +32_001 " (PropsTuple [2; 2; 4; 0; 5; 1; 1]) =
  _filter_to_codec hdf5plugin_filter_name Blosc_COMPRESSIONS numcodecs_ids
    "32001" (PropsTuple [2; 2; 4; 0; 5; 1; 1]).
Proof.
  apply (numeric_id_by_value hdf5plugin_filter_name Blosc_COMPRESSIONS numcodecs_ids
           " +32_001 " "32001" 32001); reflexivity.
Defined.

(** X6: the three leading values of a blosc tuple play no part. *)
Lemma numeric_tuple_prefix_ignored_witness :
  _filter_to_codec hdf5plugin_filter_name Blosc_COMPRESSIONS numcodecs_ids
    "32001" (PropsTuple ([2; 2; 4] ++ [0; 5; 1; 1])) =
  _filter_to_codec hdf5plugin_filter_name Blosc_COMPRESSIONS numcodecs_ids
    "32001" (PropsTuple [0; 5; 1; 1]).
Proof.
  apply (numeric_tuple_prefix_ignored
           hdf5plugin_filter_name Blosc_COMPRESSIONS numcodecs_ids
           "32001" 32001 [2; 2; 4] [0; 5; 1; 1]); reflexivity.
Defined.

(** X7 on a blosc tuple of three elements. *)
Lemma blosc_short_tuple_rejected_witness :
  _filter_to_codec hdf5plugin_filter_name Blosc_COMPRESSIONS numcodecs_ids
    "32001" (PropsTuple [5; 1; 1]) = Raise ValidationError.
Proof.
  apply (blosc_short_tuple_rejected
           hdf5plugin_filter_name Blosc_COMPRESSIONS numcodecs_ids eq_refl
           "32001" 32001 [5; 1; 1]); [reflexivity | reflexivity | simpl; lia].
Defined.

(** X9: the element size recorded with h5py's shuffle filter is dropped. *)
Lemma string_filter_parameters_dropped_witness :
  _filter_to_codec hdf5plugin_filter_name Blosc_COMPRESSIONS numcodecs_ids
    "shuffle" (PropsTuple [2]) =
  _filter_to_codec hdf5plugin_filter_name Blosc_COMPRESSIONS numcodecs_ids
    "shuffle" PropsNone.
Proof.
  apply (string_filter_parameters_dropped
           hdf5plugin_filter_name Blosc_COMPRESSIONS numcodecs_ids
           "shuffle" (PropsTuple [2]) PropsNone); [reflexivity | discriminate].
Defined.

(** X11 on the codec returned for ["gzip"] with level 4. *)
Lemma returned_codec_id_witness :
  "zlib" ∈ numcodecs_ids /\
  ({[ "level" := VInt 4 ]} : config) !! "id" = None /\
  "zlib" = standard_id "gzip".
Proof.
  destruct (returned_codec_id
              hdf5plugin_filter_name Blosc_COMPRESSIONS numcodecs_ids
              "gzip" (PropsInt 4)
              {| codec_id := "zlib"; codec_config := {[ "level" := VInt 4 ]} |}
              eq_refl) as (Hin & Hcfg & [[_ Hid] | (n & Hn & _)]).
  - split; [exact Hin |]. split; [exact Hcfg | exact Hid].
  - discriminate Hn.
Defined.

(** X12 on a pipeline whose second filter, h5py's ["lzf"], has no codec. *)
Lemma first_failing_filter_decides_witness :
  codecs_from_dataset hdf5plugin_filter_name Blosc_COMPRESSIONS numcodecs_ids
    {| attrs := ∅; dtype := IntDtype true 2;
       _filters := [("shuffle", PropsTuple [2]); ("lzf", PropsNone);
                    ("gzip", PropsInt 4)] |} = Raise UnknownCodecError.
Proof.
  apply (first_failing_filter_decides
           hdf5plugin_filter_name Blosc_COMPRESSIONS numcodecs_ids
           _ [("shuffle", PropsTuple [2])] [("gzip", PropsInt 4)] "lzf" PropsNone);
    [reflexivity | | reflexivity].
  constructor; [| constructor]. eexists. reflexivity.
Defined.

(** X13 on the shuffle-then-gzip pipeline, split after the first filter. *)
Lemma codecs_from_dataset_app_witness :
  exists cs1 cs2 : list Codec,
    [ {| codec_id := "shuffle"; codec_config := ∅ |};
      {| codec_id := "zlib"; codec_config := {[ "level" := VInt 4 ]} |} ] =
      (cs1 ++ cs2)%list /\
    codecs_from_dataset hdf5plugin_filter_name Blosc_COMPRESSIONS numcodecs_ids
      {| attrs := ∅; dtype := IntDtype true 2;
         _filters := [("shuffle", PropsTuple [2])] |} = Ok cs1 /\
    codecs_from_dataset hdf5plugin_filter_name Blosc_COMPRESSIONS numcodecs_ids
      {| attrs := ∅; dtype := IntDtype true 2;
         _filters := [("gzip", PropsInt 4)] |} = Ok cs2.
Proof.
  apply (proj1 (codecs_from_dataset_app
                  hdf5plugin_filter_name Blosc_COMPRESSIONS numcodecs_ids
                  packed_int16
                  {| attrs := ∅; dtype := IntDtype true 2;
                     _filters := [("shuffle", PropsTuple [2])] |}
                  {| attrs := ∅; dtype := IntDtype true 2;
                     _filters := [("gzip", PropsInt 4)] |}
                  _ eq_refl)).
  reflexivity.
Defined.

(** X14 on the packed 16-bit variable. *)
Lemma cfcodec_consistent_witness :
  derive_mapping packed_int16 = Ok (Float64 100%float, Array [5%float]).
Proof.
  exact (proj1 (cfcodec_consistent choose_float64 packed_int16
                  {| target_dtype := FloatDtype float64;
                     codec := {| offset := Array [5%float];
                                 scale := Float64 100%float;
                                 fso_dtype := FloatDtype float64;
                                 astype := IntDtype true 2 |} |}
                  eq_refl)).
Defined.

(** X15: with a scale of 100 an offset of two elements is accepted. *)
Lemma scale_decides_before_offset_witness :
  exists cf : CFCodec,
    cfcodec_from_dataset choose_float64
      {| attrs := {[ "scale_factor" := Array [one_hundredth];
                     "add_offset" := Array [0%float; 0%float] ]};
         dtype := IntDtype true 2; _filters := [] |} = Ok (Some cf) /\
    scale (codec cf) = Float64 100%float /\
    offset (codec cf) = Array [0%float; 0%float].
Proof.
  exact (scale_decides_before_offset choose_float64
           {| attrs := {[ "scale_factor" := Array [one_hundredth];
                          "add_offset" := Array [0%float; 0%float] ]};
              dtype := IntDtype true 2; _filters := [] |}
           one_hundredth [] eq_refl eq_refl).
Defined.

(** X16: the same offset without a scale. *)
Lemma ambiguous_offset_raises_witness :
  cfcodec_from_dataset choose_float64
    {| attrs := {[ "add_offset" := Array [0%float; 0%float] ]};
       dtype := IntDtype true 2; _filters := [] |} = Raise ValueError.
Proof.
  apply (ambiguous_offset_raises choose_float64 _ [0%float; 0%float]);
    [left; reflexivity | reflexivity | simpl; lia].
Defined.

(** X17: ["gzip"] resolves the same with no plugin filter registered. *)
Lemma string_path_ignores_plugin_witness :
  _filter_to_codec hdf5plugin_filter_name Blosc_COMPRESSIONS numcodecs_ids
    "gzip" (PropsInt 4) =
  _filter_to_codec (fun _ => None) [] numcodecs_ids "gzip" (PropsInt 4).
Proof.
  apply (string_path_ignores_plugin
           hdf5plugin_filter_name (fun _ => None) Blosc_COMPRESSIONS []
           numcodecs_ids "gzip" (PropsInt 4)).
  reflexivity.
Defined.

(** A zero [scale_factor] gives an infinite scale rather than an error. *)
Example zero_scale_factor_is_infinite :
  cfcodec_from_dataset choose_float64
    {| attrs := {[ "scale_factor" := Array [0%float] ]};
       dtype := IntDtype true 2; _filters := [] |} =
  Ok (Some {| target_dtype := FloatDtype float64;
              codec := {| offset := PyInt 0;
                          scale := Float64 infinity;
                          fso_dtype := FloatDtype float64;
                          astype := IntDtype true 2 |} |}).
Proof. reflexivity. Qed.

(** X18 at ["gzip"] with level 4, which returns a codec. *)
Lemma filter_to_codec_Ok_only_if_witness :
  standard_id "gzip" ∈ numcodecs_ids.
Proof.
  destruct (filter_to_codec_Ok_only_if
              hdf5plugin_filter_name Blosc_COMPRESSIONS numcodecs_ids
              "gzip" (PropsInt 4) (ex_intro _ _ eq_refl))
    as [(_ & _ & Hreg) | (n & t & x & Hn & _)].
  - exact Hreg.
  - discriminate Hn.
Defined.
